(** * currency_converter.py: rate resolution and conversion

    A shallow embedding of [src/py-project/currency_converter.py]:
    the table [FALLBACK_RATES], the rate provider [get_rates] and the
    converter [convert], together with the part of the Python runtime they
    rely on (exceptions, [str.upper], [dict] operations, true division on
    numbers), and the properties of these functions.

    Python floats are IEEE 754 binary64 values; they are embedded as Rocq's
    primitive floats, which implement the same format and rounding.  The
    converter does not inspect the type of the numbers it is given (the
    annotations are not enforced), so it is embedded once over an interface
    of numbers and used at binary64 floats and at exact rationals.  Bounds
    on the rounding of float operations are proved from the specification
    of the primitive floats ([SpecFloat], [FloatAxioms]). *)

From Stdlib Require Import Floats.PrimFloat QArith.QArith_base QArith.Qcanon.
From Stdlib Require QArith.QArith QArith.Qabs QArith.Qpower micromega.Lqa.
From Stdlib Require Floats.SpecFloat Floats.FloatOps Floats.FloatAxioms.
From stdpp Require Import gmap strings list fin_maps.

Set Warnings "-inexact-float".

(** ** The Python runtime *)

Module Py.

(** The exceptions that occur in the program; all derive from
    [Exception].  Interrupts, which do not, are outside the model. *)
Inductive exn : Type :=
| ValueError (msg : string)
| ZeroDivisionError
| KeyError (key : string)
| AttributeError
| RequestException      (* requests.get: connection error, timeout, ... *)
| HTTPError             (* Response.raise_for_status *)
| JSONDecodeError.      (* Response.json *)

(** A computation returns a value or raises. *)
Inductive result (A : Type) : Type :=
| Ok (a : A)
| Raise (e : exn).
Global Arguments Ok {A} a.
Global Arguments Raise {A} e.

Global Instance result_ret : MRet result := λ A a, Ok a.
Global Instance result_bind : MBind result := λ A B f m,
  match m with
  | Ok a => f a
  | Raise e => Raise e
  end.
Global Instance result_fmap : FMap result := λ A B f m,
  match m with
  | Ok a => Ok (f a)
  | Raise e => Raise e
  end.

(** [try: body except Exception: handler] *)
Definition try_except {A} (body : result A) (handler : result A) : result A :=
  match body with
  | Ok a => Ok a
  | Raise _ => handler
  end.

(** [str.upper] on ASCII text, the alphabet of currency codes: the
    letters a..z go to A..Z and every other character is kept.  The
    general properties below hold for any uppercasing function; only the
    evaluation at concrete codes depends on this definition. *)
Definition upper_char (c : Ascii.ascii) : Ascii.ascii :=
  let n := Ascii.N_of_ascii c in
  if ((97 <=? n) && (n <=? 122))%N then Ascii.ascii_of_N (n - 32) else c.

Fixpoint upper (s : string) : string :=
  match s with
  | EmptyString => EmptyString
  | String c s' => String (upper_char c) (upper s')
  end.

(** [k in d], [d[k]] and [d.get(k)] on a [dict] with [str] keys. *)
Definition dict_contains {V} (d : gmap string V) (k : string) : bool :=
  match d !! k with
  | Some _ => true
  | None => false
  end.

Definition dict_getitem {V} (d : gmap string V) (k : string) : result V :=
  match d !! k with
  | Some v => Ok v
  | None => Raise (KeyError k)
  end.

Definition dict_get {V} (d : gmap string V) (k : string) : option V := d !! k.

(** [{k: f(k, v) for k, v in d.items()}]; an exception raised by [f]
    leaves the comprehension. *)
Definition dict_comprehension {A B} (f : string → A → result B)
    (d : gmap string A) : result (gmap string B) :=
  list_to_map <$> mapM (λ kv, b ← f kv.1 kv.2; Ok (kv.1, b)) (map_to_list d).

(** Numbers as [convert] uses them: [x / y], which raises
    [ZeroDivisionError] when [y == 0], and [x * y]. *)
Class Number (num : Type) : Type := {
  num_div : num → num → num;
  num_mul : num → num → num;
  num_is_zero : num → bool
}.

Definition truediv `{Number num} (x y : num) : result num :=
  if num_is_zero y then Raise ZeroDivisionError else Ok (num_div x y).

(** [float]: binary64.  [y == 0.0] holds for both zeros and not for NaN;
    overflow gives an infinity and raises nothing. *)
Global Instance float_number : Number float := {
  num_div := PrimFloat.div;
  num_mul := PrimFloat.mul;
  num_is_zero y := PrimFloat.eqb y 0%float
}.

(** [fractions.Fraction]: exact rational arithmetic. *)
Global Instance fraction_number : Number Qc := {
  num_div := Qcdiv;
  num_mul := Qcmult;
  num_is_zero y := bool_decide (y = 0%Qc)
}.

End Py.
Import Py.

(** ** The converter *)

Section convert.
Context `{Number num}.

Definition unsupported_currency (from_currency to_currency : string) : exn :=
  ValueError ("Unsupported currency: " +:+ from_currency +:+ " or " +:+ to_currency).

Definition convert (amount : num) (from_currency to_currency : string)
    (rates : gmap string num) : result num :=
  let from_currency := upper from_currency in
  let to_currency := upper to_currency in
  if negb (dict_contains rates from_currency) || negb (dict_contains rates to_currency)
  then Raise (unsupported_currency from_currency to_currency)
  else
    rate_from ← dict_getitem rates from_currency;
    amount_in_base ← truediv amount rate_from;
    rate_to ← dict_getitem rates to_currency;
    Ok (num_mul amount_in_base rate_to).

(** The Rate Mapping of the data model: keys are uppercase codes and no
    rate is zero. *)
Definition rate_mapping (rates : gmap string num) : Prop :=
  map_Forall (λ k r, upper k = k ∧ num_is_zero r = false) rates.

End convert.

(** ** The rate provider *)

Definition FALLBACK_RATES : gmap string float :=
  list_to_map [
    ("USD", 1.0);
    ("EUR", 0.92);
    ("GBP", 0.79);
    ("JPY", 150.0);
    ("CAD", 1.36);
    ("AUD", 1.49)
  ]%float.

(** The [requests] library as [get_rates] uses it.  A response answers
    [raise_for_status()] and [json()]; the decoded body is a JSON object,
    whose [rates] field is absent ([None]) or a mapping of codes to floats,
    or some other JSON value, which has no [get] method.  A [rates] field
    of another JSON type is not represented: the results on the live path
    are about answers of the documented form. *)
Module Requests.

Inductive json_value : Type :=
| JsonObject (rates_field : option (gmap string float))
| JsonOther.

Record Response : Type := {
  raise_for_status : result ();
  json : result json_value
}.

Record module : Type := {
  get : string → Z → result Response   (* url, timeout *)
}.

(** [data.get('rates')] *)
Definition data_get_rates (data : json_value) : result (option (gmap string float)) :=
  match data with
  | JsonObject rates_field => Ok rates_field
  | JsonOther => Raise AttributeError
  end.

End Requests.

Definition rates_url (base : string) : string :=
  "https://api.exchangerate.host/latest?base=" +:+ base.

(** The body of the [try] block of [get_rates]; [base] is already in
    uppercase. *)
Definition fetch_live (requests : Requests.module) (base : string)
    : result (gmap string float) :=
  let url := rates_url base in
  resp ← Requests.get requests url 5;
  _ ← Requests.raise_for_status resp;
  data ← Requests.json resp;
  rates ← Requests.data_get_rates data;
  match rates with
  | Some rates =>
      if bool_decide (rates = ∅)
      then Raise (ValueError "No rates in response")
      else Ok rates
  | None => Raise (ValueError "No rates in response")
  end.

(** [requests] is the module-level name: [None] when the import failed. *)
Definition get_rates (requests : option Requests.module) (base : string)
    : result (gmap string float) :=
  let base := upper base in
  match requests with
  | None =>
      base_rate ← match dict_get FALLBACK_RATES base with
                  | Some base_rate => Ok base_rate
                  | None => dict_getitem FALLBACK_RATES "USD"
                  end;
      dict_comprehension (λ k v, truediv v base_rate) FALLBACK_RATES
  | Some requests =>
      try_except (fetch_live requests base)
        (base_rate ← match dict_get FALLBACK_RATES base with
                     | Some base_rate => Ok base_rate
                     | None => dict_getitem FALLBACK_RATES "USD"
                     end;
         dict_comprehension (λ k v, truediv v base_rate) FALLBACK_RATES)
  end.

(** The ways in which the live fetch yields no rates. *)
Inductive fetch_fails (requests : Requests.module) (base : string) : Prop :=
| network_error e :
    Requests.get requests (rates_url base) 5 = Raise e →
    fetch_fails requests base
| bad_status resp e :
    Requests.get requests (rates_url base) 5 = Ok resp →
    Requests.raise_for_status resp = Raise e →
    fetch_fails requests base
| malformed_json resp e :
    Requests.get requests (rates_url base) 5 = Ok resp →
    Requests.raise_for_status resp = Ok () →
    Requests.json resp = Raise e →
    fetch_fails requests base
| not_an_object resp :
    Requests.get requests (rates_url base) 5 = Ok resp →
    Requests.raise_for_status resp = Ok () →
    Requests.json resp = Ok Requests.JsonOther →
    fetch_fails requests base
| missing_rates resp :
    Requests.get requests (rates_url base) 5 = Ok resp →
    Requests.raise_for_status resp = Ok () →
    Requests.json resp = Ok (Requests.JsonObject None) →
    fetch_fails requests base
| empty_rates resp :
    Requests.get requests (rates_url base) 5 = Ok resp →
    Requests.raise_for_status resp = Ok () →
    Requests.json resp = Ok (Requests.JsonObject (Some ∅)) →
    fetch_fails requests base.

(** The live fetch is skipped (no HTTP library) or fails for [base]. *)
Inductive no_live_rates : option Requests.module → string → Prop :=
| library_unavailable base :
    no_live_rates None base
| fetch_failed requests base :
    fetch_fails requests (upper base) →
    no_live_rates (Some requests) base.

(** The Fallback Table with every value divided by [factor]. *)
Definition normalized (factor : float) : gmap string float :=
  (λ v, PrimFloat.div v factor) <$> FALLBACK_RATES.

(** The normalization factor for an uppercase [base]. *)
Definition normalization_factor (base : string) : float :=
  match FALLBACK_RATES !! base with
  | Some base_rate => base_rate
  | None => 1.0%float
  end.

(** Environments used in the examples: a network that is down, and a
    service that answers with two rates. *)
Definition offline : Requests.module :=
  {| Requests.get := λ _ _, Raise RequestException |}.

Definition live_rates : gmap string float :=
  list_to_map [("USD", 1.0); ("EUR", 0.5)]%float.

Definition online : Requests.module :=
  {| Requests.get := λ _ _,
       Ok {| Requests.raise_for_status := Ok ();
             Requests.json := Ok (Requests.JsonObject (Some live_rates)) |} |}.


(** The Fallback Table in exact arithmetic. *)
Definition exact_rates : gmap string Qc :=
  list_to_map [
    ("USD", Q2Qc (Qmake 1 1));
    ("EUR", Q2Qc (Qmake 92 100));
    ("GBP", Q2Qc (Qmake 79 100));
    ("JPY", Q2Qc (Qmake 150 1));
    ("CAD", Q2Qc (Qmake 136 100));
    ("AUD", Q2Qc (Qmake 149 100))
  ].

(** ** The command line *)

Module Cli.

(** The arguments as [parser.parse_args()] returns them; [amount] has
    been read with [type=float]. *)
Record Namespace : Type := {
  amount : float;
  from_currency : string;
  to_currency : string;
  base : string
}.

(** What [main] does once the arguments are parsed: it prints one line on
    standard output and returns, or it prints the exception after
    [Error:] on standard error and leaves through [sys.exit] with a
    status. *)
Inductive outcome : Type :=
| Stdout (line : string)
| StderrExit (error : exn) (status : Z).

End Cli.

(** The line printed on success.  [format_f n x] stands for
    [format(x, '.nf')], the fixed-point formatting of floats, which is
    taken as given. *)
Definition report (format_f : nat → float → string) (args : Cli.Namespace)
    (result : float) : string :=
  format_f 2 (Cli.amount args) +:+ " " +:+ upper (Cli.from_currency args)
  +:+ " = " +:+ format_f 4 result +:+ " " +:+ upper (Cli.to_currency args).

(** [main], from the [try] statement on. *)
Definition main (format_f : nat → float → string)
    (requests : option Requests.module) (args : Cli.Namespace) : Cli.outcome :=
  match
    (rates ← get_rates requests (Cli.base args);
     result ← convert (Cli.amount args) (Cli.from_currency args)
                (Cli.to_currency args) rates;
     Ok (report format_f args result))
  with
  | Ok line => Cli.Stdout line
  | Raise e => Cli.StderrExit e 1
  end.

(** ** Binary64 values *)

Section binary64.
Import Stdlib.QArith.QArith Stdlib.Floats.SpecFloat Stdlib.Floats.FloatOps.
Local Open Scope Q_scope.




(** A float that is neither a zero, nor an infinity, nor NaN. *)
Definition float_finite (f : float) : bool :=
  match Prim2SF f with
  | S754_finite _ _ _ => true
  | _ => false
  end.

(** A normal float: finite, with a full mantissa of 53 bits, that is of
    magnitude at least 2^-1022. *)
Definition float_normal (f : float) : bool :=
  match Prim2SF f with
  | S754_finite _ m _ => (4503599627370496 <=? Zpos m)%Z
  | _ => false
  end.


(** The amounts on which the round trip through rates [rx] and [ry]
    neither overflows nor underflows: a zero amount with finite rates, or
    an amount for which the results of the four operations are normal. *)
Definition roundtrip_in_range (A rx ry : float) : bool :=
  (PrimFloat.eqb A 0 && float_finite rx && float_finite ry)
  || (float_normal (A / rx) && float_normal (A / rx * ry)
      && float_normal (A / rx * ry / ry)
      && float_normal (A / rx * ry / ry * rx))%float.

(** The same for the conversion of a currency to itself, at rate [r]. *)
Definition identity_in_range (A r : float) : bool :=
  (PrimFloat.eqb A 0 && float_finite r)
  || (float_normal (A / r) && float_normal (A / r * r))%float.



End binary64.

(** ** Properties of the runtime model *)

Lemma dict_contains_true {V} (d : gmap string V) k v :
  d !! k = Some v → dict_contains d k = true.
Proof. unfold dict_contains. by intros ->. Qed.

Lemma dict_contains_false {V} (d : gmap string V) k :
  d !! k = None ↔ dict_contains d k = false.
Proof. unfold dict_contains. by destruct (d !! k). Qed.

Lemma dict_getitem_Some {V} (d : gmap string V) k v :
  d !! k = Some v → dict_getitem d k = Ok v.
Proof. unfold dict_getitem. by intros ->. Qed.

Lemma truediv_nonzero `{Number num} (x y : num) :
  num_is_zero y = false → truediv x y = Ok (num_div x y).
Proof. unfold truediv. by intros ->. Qed.

(** ** Properties of [convert] *)

Section convert_facts.
Context `{Number num}.
Implicit Types (A : num) (R : gmap string num).

(** With both codes present, [convert] is the division followed by the
    multiplication. *)
Lemma convert_present A f t R rf rt :
  R !! upper f = Some rf → R !! upper t = Some rt →
  convert A f t R = (b ← truediv A rf; Ok (num_mul b rt)).
Proof.
  intros Hf Ht. unfold convert.
  rewrite (dict_contains_true _ _ _ Hf), (dict_contains_true _ _ _ Ht).
  rewrite (dict_getitem_Some _ _ _ Hf), (dict_getitem_Some _ _ _ Ht).
  simpl. by destruct (truediv A rf).
Qed.

Lemma convert_missing A f t R :
  R !! upper f = None ∨ R !! upper t = None →
  convert A f t R = Raise (unsupported_currency (upper f) (upper t)).
Proof.
  intros Hmiss. unfold convert.
  destruct Hmiss as [Hm|Hm]; apply dict_contains_false in Hm; rewrite Hm; simpl.
  - done.
  - by rewrite orb_true_r.
Qed.

Lemma convert_result A f t R :
  convert A f t R =
    match R !! upper f, R !! upper t with
    | Some rf, Some rt =>
        if num_is_zero rf then Raise ZeroDivisionError
        else Ok (num_mul (num_div A rf) rt)
    | _, _ => Raise (unsupported_currency (upper f) (upper t))
    end.
Proof.
  destruct (R !! upper f) as [rf|] eqn:Hf; [|apply convert_missing; by left].
  destruct (R !! upper t) as [rt|] eqn:Ht; [|apply convert_missing; by right].
  rewrite (convert_present _ _ _ _ _ _ Hf Ht). unfold truediv.
  by destruct (num_is_zero rf).
Qed.

Lemma rate_mapping_key R k :
  rate_mapping R → k ∈ dom R →
  ∃ r, R !! upper k = Some r ∧ num_is_zero r = false.
Proof.
  intros HR [r Hr]%elem_of_dom. destruct (HR _ _ Hr) as [Hup Hnz].
  exists r. by rewrite Hup.
Qed.

Lemma convert_nonzero A f t R rf rt :
  R !! upper f = Some rf → R !! upper t = Some rt →
  num_is_zero rf = false →
  convert A f t R = Ok (num_mul (num_div A rf) rt).
Proof.
  intros Hf Ht Hnz. rewrite (convert_present _ _ _ _ _ _ Hf Ht).
  by rewrite (truediv_nonzero _ _ Hnz).
Qed.

(** C1. For every amount A, codes f and t and mapping R in which
    f.upper() and t.upper() are keys (the rate of f.upper() being
    nonzero, as in a Rate Mapping), convert(A, f, t, R) returns
    (A / R[f.upper()]) * R[t.upper()]: the codes are looked up in
    uppercase and the product is returned as computed, unrounded. *)
Theorem convert_two_hop A f t R rf rt :
  R !! upper f = Some rf → R !! upper t = Some rt →
  num_is_zero rf = false →
  convert A f t R = Ok (num_mul (num_div A rf) rt).
Proof.
  intros Hf Ht Hnz. rewrite convert_result, Hf, Ht. by rewrite Hnz.
Qed.

(** C2. convert(A, f, t, R) fails with the unsupported-currency
    ValueError exactly when f.upper() or t.upper() is not a key of R;
    on a Rate Mapping this is the only error convert signals, whatever
    the amount A. *)
Theorem convert_error_iff_unsupported A f t R :
  (R !! upper f = None ∨ R !! upper t = None →
     convert A f t R = Raise (unsupported_currency (upper f) (upper t)))
  ∧ (∀ msg, convert A f t R = Raise (ValueError msg) →
     R !! upper f = None ∨ R !! upper t = None)
  ∧ (rate_mapping R → ∀ e, convert A f t R = Raise e →
     e = unsupported_currency (upper f) (upper t)
     ∧ (R !! upper f = None ∨ R !! upper t = None)).
Proof.
  split; [apply convert_missing|]. split.
  - intros msg. rewrite convert_result.
    destruct (R !! upper f) as [rf|]; [|by left].
    destruct (R !! upper t) as [rt|]; [|by right].
    by destruct (num_is_zero rf).
  - intros HR e. rewrite convert_result.
    destruct (R !! upper f) as [rf|] eqn:Hf; [|intros [= <-]; auto].
    destruct (R !! upper t) as [rt|] eqn:Ht; [|intros [= <-]; auto].
    destruct (HR _ _ Hf) as [_ ->]. done.
Qed.

End convert_facts.

(** C10. On a Rate Mapping (no rate is zero) the division in convert is
    defined, and convert returns a value whenever both codes are present;
    but convert has no guard of its own: on a mapping that gives the
    uppercased source code the rate 0.0 it fails with ZeroDivisionError,
    not with the unsupported-currency error. *)
Theorem convert_division_guard :
  (∀ `{Number num} (A : num) f t (R : gmap string num),
     rate_mapping R → is_Some (R !! upper f) → is_Some (R !! upper t) →
     ∃ rf rt, R !! upper f = Some rf ∧ R !! upper t = Some rt
       ∧ truediv A rf = Ok (num_div A rf)
       ∧ convert A f t R = Ok (num_mul (num_div A rf) rt))
  ∧ (∃ (R : gmap string float) (A : float) f t,
     R !! upper f = Some 0%float ∧ is_Some (R !! upper t)
     ∧ convert A f t R = Raise ZeroDivisionError).
Proof.
  split.
  - intros num ? A f t R HR [rf Hf] [rt Ht]. exists rf, rt.
    destruct (HR _ _ Hf) as [_ Hnz].
    rewrite (convert_present _ _ _ _ _ _ Hf Ht), (truediv_nonzero _ _ Hnz).
    done.
  - exists {["XXX" := 0%float]}, 100%float, "xxx", "xxx".
    split; [|split]; [done|by eexists|done].
Qed.

(** ** [convert] in exact arithmetic *)

Lemma fraction_nonzero (r : Qc) : num_is_zero r = false → r ≠ 0%Qc.
Proof. simpl. by intros ?%bool_decide_eq_false. Qed.

Lemma fraction_div_mul (a r : Qc) : r ≠ 0%Qc → (a / r * r)%Qc = a.
Proof. intros Hr. rewrite Qcmult_comm. by apply Qcmult_div_r. Qed.

(** In exact arithmetic, for every amount A, Rate Mapping R and keys X
    and Y of R, converting A from X to Y and the result back from Y to X
    returns exactly A. *)
Lemma convert_roundtrip_exact (A : Qc) (X Y : string) (R : gmap string Qc) :
  rate_mapping R → X ∈ dom R → Y ∈ dom R →
  (B ← convert A X Y R; convert B Y X R) = Ok A.
Proof.
  intros HR HX HY.
  destruct (rate_mapping_key R X HR HX) as (rx & Hx & Hxz).
  destruct (rate_mapping_key R Y HR HY) as (ry & Hy & Hyz).
  rewrite (convert_nonzero A X Y R rx ry Hx Hy Hxz). simpl.
  rewrite (convert_nonzero _ Y X R ry rx Hy Hx Hyz). simpl.
  apply fraction_nonzero in Hxz, Hyz. f_equal.
  change ((A / rx * ry / ry * rx)%Qc = A).
  rewrite (Qcdiv_mult_l _ ry Hyz). by apply fraction_div_mul.
Qed.

(** In exact arithmetic, for every amount A, Rate Mapping R and key X of
    R, convert(A, X, X, R) returns exactly A. *)
Lemma convert_identity_exact (A : Qc) (X : string) (R : gmap string Qc) :
  rate_mapping R → X ∈ dom R →
  convert A X X R = Ok A.
Proof.
  intros HR HX.
  destruct (rate_mapping_key R X HR HX) as (rx & Hx & Hxz).
  rewrite (convert_nonzero A X X R rx rx Hx Hx Hxz).
  f_equal. by apply fraction_div_mul, fraction_nonzero.
Qed.

(** ** [convert] on binary64 floats *)

(** The concrete scenarios of the specification. *)
Example convert_usd_eur :
  convert 100%float "USD" "EUR" FALLBACK_RATES = Ok 92%float.
Proof. reflexivity. Qed.

Example convert_eur_usd :
  convert 100%float "EUR" "USD" FALLBACK_RATES = Ok 108.69565217391303%float
  ∧ PrimFloat.div 100 0.92 = 108.69565217391303%float.
Proof. split; reflexivity. Qed.

Example convert_zzz :
  convert 100%float "ZZZ" "USD" FALLBACK_RATES
  = Raise (ValueError "Unsupported currency: ZZZ or USD").
Proof. reflexivity. Qed.

Lemma FALLBACK_RATES_rate_mapping : rate_mapping FALLBACK_RATES.
Proof. apply map_Forall_to_list. vm_compute. repeat constructor. Qed.



(** ** Properties of [get_rates] *)

Lemma FALLBACK_RATES_items :
  map_to_list FALLBACK_RATES =
    [("GBP", 0.79); ("CAD", 1.36); ("USD", 1.0);
     ("EUR", 0.92); ("AUD", 1.49); ("JPY", 150.0)]%float.
Proof. vm_compute. reflexivity. Qed.

Lemma FALLBACK_RATES_lookup_Some k r :
  FALLBACK_RATES !! k = Some r →
  (k, r) ∈ [("USD", 1.0); ("EUR", 0.92); ("GBP", 0.79);
            ("JPY", 150.0); ("CAD", 1.36); ("AUD", 1.49)]%float.
Proof.
  intros Hk. apply (elem_of_map_to_list (M:=gmap string)) in Hk.
  rewrite FALLBACK_RATES_items in Hk.
  repeat (apply elem_of_cons in Hk as [[= -> ->]|Hk]);
    [..|by apply elem_of_nil in Hk].
  all: repeat constructor.
Qed.

(** Case analysis on a key of the Fallback Table. *)
Ltac fallback_key H :=
  apply FALLBACK_RATES_lookup_Some in H;
  repeat (apply elem_of_cons in H as [[= -> ->]|H]);
  [..|by apply elem_of_nil in H].

(** Both copies of the fallback code of [get_rates] compute the table
    normalized by the factor of [base]. *)
Lemma fallback_normalization base :
  (base_rate ← match dict_get FALLBACK_RATES base with
               | Some base_rate => Ok base_rate
               | None => dict_getitem FALLBACK_RATES "USD"
               end;
   dict_comprehension (λ k v, truediv v base_rate) FALLBACK_RATES)
  = Ok (normalized (normalization_factor base)).
Proof.
  unfold dict_get, normalization_factor.
  destruct (FALLBACK_RATES !! base) as [r|] eqn:Hbase.
  - fallback_key Hbase; vm_compute; reflexivity.
  - vm_compute; reflexivity.
Qed.

Lemma fetch_fails_raises requests base :
  fetch_fails requests base ↔ ∃ e, fetch_live requests base = Raise e.
Proof.
  unfold fetch_live. split.
  - intros [e Hg|resp e Hg Hs|resp e Hg Hs Hj|resp Hg Hs Hj|resp Hg Hs Hj
            |resp Hg Hs Hj]; rewrite Hg; simpl; rewrite ?Hs; simpl;
      rewrite ?Hj; simpl; try case_bool_decide; eauto; done.
  - intros [e He].
    destruct (Requests.get requests (rates_url base) 5) as [resp|e1] eqn:Hg;
      [|by eapply network_error].
    simpl in He.
    destruct (Requests.raise_for_status resp) as [[]|e2] eqn:Hs;
      [|by eapply bad_status].
    simpl in He.
    destruct (Requests.json resp) as [[[rates|]|]|e3] eqn:Hj;
      [|by eapply missing_rates|by eapply not_an_object|by eapply malformed_json].
    simpl in He. case_bool_decide as Hempty; [|done].
    subst rates. by eapply empty_rates.
Qed.

Lemma get_rates_no_live requests base :
  no_live_rates requests base →
  get_rates requests base = Ok (normalized (normalization_factor (upper base))).
Proof.
  intros [b|r b [e He]%fetch_fails_raises]; unfold get_rates.
  - apply fallback_normalization.
  - rewrite He. apply fallback_normalization.
Qed.

Lemma get_rates_live requests base rates :
  fetch_live requests (upper base) = Ok rates →
  get_rates (Some requests) base = Ok rates.
Proof. unfold get_rates. by intros ->. Qed.

Lemma normalization_factor_cases base :
  normalization_factor base ∈ [1.0; 0.92; 0.79; 150.0; 1.36; 1.49]%float.
Proof.
  unfold normalization_factor.
  destruct (FALLBACK_RATES !! base) as [r|] eqn:Hbase; [|by constructor].
  fallback_key Hbase; repeat constructor.
Qed.

(** C3. When the live fetch fails or is skipped, get_rates(base) returns
    {k: FALLBACK_RATES[k] / f for k in FALLBACK_RATES}, where f is
    FALLBACK_RATES[base.upper()] when base.upper() is a key of the table
    and USD's value 1.0 otherwise; when base.upper() is absent the result
    is the Fallback Table itself. *)
Theorem get_rates_fallback_normalization requests base :
  no_live_rates requests base →
  FALLBACK_RATES !! "USD" = Some 1.0%float
  ∧ get_rates requests base
    = Ok ((λ v, PrimFloat.div v (default 1.0%float (FALLBACK_RATES !! upper base)))
            <$> FALLBACK_RATES)
  ∧ (FALLBACK_RATES !! upper base = None →
     get_rates requests base = Ok FALLBACK_RATES).
Proof.
  intros Hno. rewrite (get_rates_no_live _ _ Hno).
  unfold normalized, normalization_factor.
  split; [done|]. split.
  - by destruct (FALLBACK_RATES !! upper base).
  - intros ->. vm_compute. reflexivity.
Qed.

(** C4. For every string base, get_rates(base) returns a mapping and
    raises nothing: a network error, an error status, a body that is not
    JSON, a missing or empty rates field, and the absence of the HTTP
    library all end in the normalized fallback mapping. *)
Theorem get_rates_never_fails requests base :
  ∃ rates, get_rates requests base = Ok rates
    ∧ (no_live_rates requests base →
       rates = normalized (normalization_factor (upper base))).
Proof.
  destruct requests as [r|].
  - destruct (fetch_live r (upper base)) as [rates|e] eqn:Hlive.
    + exists rates. split; [by apply get_rates_live|].
      intros Hno. inversion Hno as [|? ? [e He]%fetch_fails_raises]; subst.
      congruence.
    + assert (no_live_rates (Some r) base) as Hno.
      { apply fetch_failed, fetch_fails_raises. eauto. }
      eexists. split; [by apply get_rates_no_live|done].
  - eexists. split; [apply get_rates_no_live; constructor|done].
Qed.

(** C7. For every key B of the Fallback Table, get_rates(B) with the
    network unavailable returns a mapping M with M[B] == 1.0. *)
Theorem get_rates_fallback_base_is_one requests B :
  B ∈ dom FALLBACK_RATES → no_live_rates requests B →
  ∃ M v, get_rates requests B = Ok M
    ∧ M !! B = Some v ∧ PrimFloat.eqb v 1.0 = true ∧ v = 1.0%float.
Proof.
  intros [r Hr]%elem_of_dom Hno. rewrite (get_rates_no_live _ _ Hno).
  exists (normalized (normalization_factor (upper B))), 1.0%float.
  split; [done|]. clear Hno.
  fallback_key Hr; vm_compute; by repeat split.
Qed.

(** C8. For every base, get_rates without the HTTP library returns the
    same mapping as get_rates whose live fetch is attempted and fails. *)
Theorem get_rates_no_client_eq_failed_fetch requests base :
  fetch_fails requests (upper base) →
  get_rates None base = get_rates (Some requests) base.
Proof.
  intros [e He]%fetch_fails_raises. unfold get_rates. by rewrite He.
Qed.

(** C9. For every base, the mapping returned by get_rates when the live
    fetch fails or is skipped has exactly the keys USD, EUR, GBP, JPY,
    CAD and AUD, and each of its values is strictly positive; it is a
    Rate Mapping. *)
Theorem get_rates_fallback_keys_positive requests base :
  no_live_rates requests base →
  ∃ rates, get_rates requests base = Ok rates
    ∧ dom rates = ({["USD"; "EUR"; "GBP"; "JPY"; "CAD"; "AUD"]} : gset string)
    ∧ map_Forall (λ _ v, PrimFloat.ltb 0 v = true) rates
    ∧ rate_mapping rates.
Proof.
  intros Hno. rewrite (get_rates_no_live _ _ Hno).
  eexists. split; [done|].
  pose proof (normalization_factor_cases (upper base)) as Hf.
  repeat (apply elem_of_cons in Hf as [->|Hf]); [..|by apply elem_of_nil in Hf].
  all: split; [vm_compute; reflexivity|].
  all: split; apply map_Forall_to_list; vm_compute; repeat constructor.
Qed.

(** The lookup of [base] follows [base.upper()]: "eur" is not a key of
    the Fallback Table, and the mapping for it is normalized by EUR. *)
Example get_rates_lowercase_base :
  FALLBACK_RATES !! "eur" = None
  ∧ get_rates None "eur" = Ok (normalized 0.92)
  ∧ normalized 0.92 !! "USD" = Some (PrimFloat.div 1 0.92)
  ∧ normalized 0.92 !! "EUR" = Some 1%float.
Proof. vm_compute. by repeat split. Qed.

(** A successful fetch is returned as it is, whatever the base. *)
Example get_rates_online : get_rates (Some online) "eur" = Ok live_rates.
Proof. apply get_rates_live. vm_compute. reflexivity. Qed.

(** ** The theorems at concrete inputs *)

Lemma offline_no_live_rates base : no_live_rates (Some offline) base.
Proof. apply fetch_failed. by eapply network_error. Qed.

Lemma exact_rates_rate_mapping : rate_mapping exact_rates.
Proof. apply map_Forall_to_list. vm_compute. repeat constructor. Qed.

Lemma convert_two_hop_witness :
  convert 100%float "usd" "eur" FALLBACK_RATES = Ok 92%float.
Proof.
  exact (convert_two_hop 100%float "usd" "eur" FALLBACK_RATES 1%float 0.92%float
           eq_refl eq_refl eq_refl).
Defined.

Lemma convert_error_iff_unsupported_witness :
  convert 100%float "zzz" "usd" FALLBACK_RATES
  = Raise (ValueError "Unsupported currency: ZZZ or USD")
  ∧ (FALLBACK_RATES !! "ZZZ" = None ∨ FALLBACK_RATES !! "USD" = None)
  ∧ ValueError "Unsupported currency: ZZZ or USD"
    = unsupported_currency (upper "zzz") (upper "usd").
Proof.
  pose proof (convert_error_iff_unsupported 100%float "zzz" "usd" FALLBACK_RATES)
    as (Hmiss & Hval & Honly).
  split; [|split].
  - apply Hmiss. left. reflexivity.
  - apply (Hval "Unsupported currency: ZZZ or USD"). reflexivity.
  - apply (Honly FALLBACK_RATES_rate_mapping). reflexivity.
Defined.

Lemma get_rates_fallback_normalization_witness :
  get_rates (Some offline) "xyz" = Ok FALLBACK_RATES.
Proof.
  apply (get_rates_fallback_normalization (Some offline) "xyz").
  - apply offline_no_live_rates.
  - reflexivity.
Defined.

Lemma get_rates_never_fails_witness :
  ∃ rates, get_rates (Some offline) "eur" = Ok rates
    ∧ rates = normalized (normalization_factor "EUR").
Proof.
  destruct (get_rates_never_fails (Some offline) "eur") as (rates & Hget & Hno).
  exists rates. split; [exact Hget|]. apply Hno, offline_no_live_rates.
Defined.

Lemma get_rates_fallback_base_is_one_witness :
  ∃ M v, get_rates None "EUR" = Ok M
    ∧ M !! "EUR" = Some v ∧ PrimFloat.eqb v 1.0 = true ∧ v = 1.0%float.
Proof.
  apply (get_rates_fallback_base_is_one None "EUR").
  - apply elem_of_dom. eexists. reflexivity.
  - constructor.
Defined.

Lemma get_rates_no_client_eq_failed_fetch_witness :
  get_rates None "eur" = get_rates (Some offline) "eur".
Proof.
  apply (get_rates_no_client_eq_failed_fetch offline "eur").
  eapply network_error. reflexivity.
Defined.

Lemma get_rates_fallback_keys_positive_witness :
  ∃ rates, get_rates None "jpy" = Ok rates
    ∧ dom rates = ({["USD"; "EUR"; "GBP"; "JPY"; "CAD"; "AUD"]} : gset string)
    ∧ map_Forall (λ _ v, PrimFloat.ltb 0 v = true) rates
    ∧ rate_mapping rates.
Proof.
  apply (get_rates_fallback_keys_positive None "jpy"). constructor.
Defined.

Lemma convert_division_guard_witness :
  ∃ rf rt, FALLBACK_RATES !! upper "usd" = Some rf
    ∧ FALLBACK_RATES !! upper "eur" = Some rt
    ∧ truediv 100%float rf = Ok (num_div 100%float rf)
    ∧ convert 100%float "usd" "eur" FALLBACK_RATES
      = Ok (num_mul (num_div 100%float rf) rt).
Proof.
  apply (proj1 convert_division_guard float _ 100%float "usd" "eur" FALLBACK_RATES).
  - apply FALLBACK_RATES_rate_mapping.
  - eexists. reflexivity.
  - eexists. reflexivity.
Defined.

Lemma convert_roundtrip_exact_witness :
  (B ← convert (Q2Qc (Qmake 100 1)) "USD" "EUR" exact_rates;
   convert B "EUR" "USD" exact_rates) = Ok (Q2Qc (Qmake 100 1)).
Proof.
  apply (convert_roundtrip_exact (Q2Qc (Qmake 100 1)) "USD" "EUR" exact_rates).
  - apply exact_rates_rate_mapping.
  - apply elem_of_dom. eexists. reflexivity.
  - apply elem_of_dom. eexists. reflexivity.
Defined.

Lemma convert_identity_exact_witness :
  convert (Q2Qc (Qmake 1 1)) "GBP" "GBP" exact_rates = Ok (Q2Qc (Qmake 1 1)).
Proof.
  apply (convert_identity_exact (Q2Qc (Qmake 1 1)) "GBP" exact_rates).
  - apply exact_rates_rate_mapping.
  - apply elem_of_dom. eexists. reflexivity.
Defined.

(** ** Case of the currency codes *)

Lemma upper_char_idempotent c : upper_char (upper_char c) = upper_char c.
Proof. by destruct c as [[] [] [] [] [] [] [] []]. Qed.

Lemma upper_idempotent s : upper (upper s) = upper s.
Proof.
  induction s as [|c s IH]; [done|].
  simpl. by rewrite upper_char_idempotent, IH.
Qed.

(** X1. convert does not depend on the case of the two codes: a code and
    its uppercase form give the same result or the same error. *)
Theorem convert_case_insensitive `{Number num} (A : num) f t
    (R : gmap string num) :
  convert A (upper f) (upper t) R = convert A f t R.
Proof. unfold convert. by rewrite !upper_idempotent. Qed.

(** X2. get_rates does not depend on the case of the base, whatever the
    requests library answers. *)
Theorem get_rates_case_insensitive requests base :
  get_rates requests (upper base) = get_rates requests base.
Proof. unfold get_rates. by rewrite upper_idempotent. Qed.

(** ** Errors of [convert] *)

(** X3. convert raises ZeroDivisionError exactly when both uppercased
    codes are keys of the mapping and the rate of the source code is
    zero; the rate of the target code plays no part. *)
Theorem convert_zero_division_iff `{Number num} (A : num) f t
    (R : gmap string num) :
  convert A f t R = Raise ZeroDivisionError
  ↔ ∃ rf, R !! upper f = Some rf ∧ is_Some (R !! upper t)
      ∧ num_is_zero rf = true.
Proof.
  rewrite convert_result. split.
  - destruct (R !! upper f) as [rf|]; [|done].
    destruct (R !! upper t) as [rt|] eqn:Ht; [|done].
    destruct (num_is_zero rf) eqn:Hz; [|done].
    intros _. exists rf. by rewrite Hz.
  - intros (rf & -> & [rt ->] & ->). done.
Qed.

(** ** More of [convert] in exact arithmetic *)

Section exact_arithmetic.
Import Stdlib.setoid_ring.Field_tac Stdlib.setoid_ring.Ring_tac.

Lemma fraction_rescale (a rf rt c : Qc) :
  rf ≠ 0%Qc → c ≠ 0%Qc → (a / (rf / c) * (rt / c))%Qc = (a / rf * rt)%Qc.
Proof. intros Hrf Hc. field. by split. Qed.

Lemma fraction_div_zero (r c : Qc) :
  c ≠ 0%Qc → (r / c)%Qc = 0%Qc ↔ r = 0%Qc.
Proof.
  intros Hc. split.
  - intros Hz. rewrite <-(Qcmult_div_r r c Hc), Hz. ring.
  - intros ->. field. done.
Qed.

(** X4. In exact arithmetic conversions compose: on a Rate Mapping R
    with keys X, Y and Z, converting from X to Y and the result from Y
    to Z returns what the direct conversion from X to Z returns. *)
Theorem convert_compose_exact (A : Qc) (X Y Z : string) (R : gmap string Qc) :
  rate_mapping R → X ∈ dom R → Y ∈ dom R → Z ∈ dom R →
  (B ← convert A X Y R; convert B Y Z R) = convert A X Z R.
Proof.
  intros HR HX HY HZ.
  destruct (rate_mapping_key R X HR HX) as (rx & Hx & Hxz).
  destruct (rate_mapping_key R Y HR HY) as (ry & Hy & Hyz).
  destruct (rate_mapping_key R Z HR HZ) as (rz & Hz & _).
  rewrite (convert_nonzero A X Y R rx ry Hx Hy Hxz). simpl.
  rewrite (convert_nonzero _ Y Z R ry rz Hy Hz Hyz).
  rewrite (convert_nonzero A X Z R rx rz Hx Hz Hxz).
  apply fraction_nonzero in Hyz. f_equal.
  change ((A / rx * ry / ry * rz)%Qc = (A / rx * rz)%Qc).
  by rewrite (Qcdiv_mult_l _ ry Hyz).
Qed.

(** X5. In exact arithmetic the base of the rates does not matter:
    dividing every rate of a mapping by the same nonzero factor, as the
    fallback normalization of get_rates does, changes neither the result
    of convert nor its error. *)
Theorem convert_base_invariant_exact (A c : Qc) (f t : string)
    (R : gmap string Qc) :
  c ≠ 0%Qc →
  convert A f t ((λ v, v / c)%Qc <$> R) = convert A f t R.
Proof.
  intros Hc. rewrite !convert_result, !lookup_fmap.
  destruct (R !! upper f) as [rf|]; [|done].
  destruct (R !! upper t) as [rt|]; [|done].
  simpl. case_bool_decide as Hq; case_bool_decide as Hr; try done.
  - by apply fraction_div_zero in Hq.
  - by apply (fraction_div_zero rf c Hc) in Hr.
  - f_equal. by apply fraction_rescale.
Qed.

End exact_arithmetic.

(** ** The live path of [get_rates] *)

Lemma fetch_live_Ok requests base rates :
  fetch_live requests base = Ok rates
  ↔ ∃ resp, Requests.get requests (rates_url base) 5 = Ok resp
      ∧ Requests.raise_for_status resp = Ok ()
      ∧ Requests.json resp = Ok (Requests.JsonObject (Some rates))
      ∧ rates ≠ ∅.
Proof.
  unfold fetch_live. split.
  - destruct (Requests.get requests (rates_url base) 5) as [resp|] eqn:Hg;
      [|done].
    simpl. destruct (Requests.raise_for_status resp) as [[]|] eqn:Hs; [|done].
    simpl. destruct (Requests.json resp) as [[[m|]|]|] eqn:Hj; try done.
    simpl. case_bool_decide as Hm; [done|]. intros [= ->]. by exists resp.
  - intros (resp & -> & Hs & Hj & Hne). simpl. rewrite Hs. simpl.
    rewrite Hj. simpl. by rewrite bool_decide_eq_false_2.
Qed.


(** X6. When the request for the uppercased base (timeout 5) is answered
    with a success status and a JSON object whose rates field is a
    non-empty mapping, get_rates returns that mapping as it is: nothing
    is normalized, whether or not the base is a key of it or of the
    Fallback Table. *)
Theorem get_rates_live_success requests base resp rates :
  Requests.get requests (rates_url (upper base)) 5 = Ok resp →
  Requests.raise_for_status resp = Ok () →
  Requests.json resp = Ok (Requests.JsonObject (Some rates)) →
  rates ≠ ∅ →
  get_rates (Some requests) base = Ok rates.
Proof.
  intros Hg Hs Hj Hne. apply get_rates_live, fetch_live_Ok. by exists resp.
Qed.


(** X8. get_rates consults the requests library through one call only,
    the GET of the URL of the uppercased base with timeout 5: two
    libraries that answer this call alike give the same result. *)
Theorem get_rates_single_request r1 r2 base :
  Requests.get r1 (rates_url (upper base)) 5
  = Requests.get r2 (rates_url (upper base)) 5 →
  get_rates (Some r1) base = get_rates (Some r2) base.
Proof. intros Hget. unfold get_rates, fetch_live. by rewrite Hget. Qed.

(** ** Conversion on the fallback path *)

Lemma normalized_rate_mapping base :
  rate_mapping (normalized (normalization_factor base)).
Proof.
  pose proof (normalization_factor_cases base) as Hf.
  repeat (apply elem_of_cons in Hf as [->|Hf]); [..|by apply elem_of_nil in Hf].
  all: apply map_Forall_to_list; vm_compute; repeat constructor.
Qed.

Lemma normalized_lookup factor k :
  normalized factor !! k = (λ v, PrimFloat.div v factor) <$> FALLBACK_RATES !! k.
Proof. unfold normalized. apply lookup_fmap. Qed.

Lemma convert_normalized (A : float) f t base :
  convert A f t (normalized (normalization_factor base)) =
    match FALLBACK_RATES !! upper f, FALLBACK_RATES !! upper t with
    | Some rf, Some rt =>
        Ok (PrimFloat.mul
              (PrimFloat.div A (PrimFloat.div rf (normalization_factor base)))
              (PrimFloat.div rt (normalization_factor base)))
    | _, _ => Raise (unsupported_currency (upper f) (upper t))
    end.
Proof.
  rewrite convert_result, !normalized_lookup.
  destruct (FALLBACK_RATES !! upper f) as [rf|] eqn:Hf; [|done].
  destruct (FALLBACK_RATES !! upper t) as [rt|] eqn:Ht; [|done].
  simpl.
  destruct (normalized_rate_mapping base (upper f)
              (PrimFloat.div rf (normalization_factor base))) as [_ Hnz].
  { by rewrite normalized_lookup, Hf. }
  simpl in Hnz. by rewrite Hnz.
Qed.

(** X9. When there are no live rates, whatever the base and the amount,
    converting with the mapping get_rates returns succeeds when both
    uppercased codes are keys of the Fallback Table, with the table's
    rates divided by the factor of the base, and raises the
    unsupported-currency error otherwise; it never divides by zero. *)
Theorem fallback_conversion requests base (A : float) f t :
  no_live_rates requests base →
  (rates ← get_rates requests base; convert A f t rates) =
    match FALLBACK_RATES !! upper f, FALLBACK_RATES !! upper t with
    | Some rf, Some rt =>
        Ok (PrimFloat.mul
              (PrimFloat.div A
                 (PrimFloat.div rf (normalization_factor (upper base))))
              (PrimFloat.div rt (normalization_factor (upper base))))
    | _, _ => Raise (unsupported_currency (upper f) (upper t))
    end.
Proof.
  intros Hno. rewrite (get_rates_no_live _ _ Hno). simpl.
  apply convert_normalized.
Qed.

(** ** [main] *)

(** X11. When there are no live rates, main prints the conversion line
    when both uppercased codes are keys of the Fallback Table, and
    otherwise reports the unsupported-currency error with status 1,
    whatever the base and the amount. *)
Theorem main_fallback format_f requests args :
  no_live_rates requests (Cli.base args) →
  main format_f requests args =
    match FALLBACK_RATES !! upper (Cli.from_currency args),
          FALLBACK_RATES !! upper (Cli.to_currency args) with
    | Some rf, Some rt =>
        let factor := normalization_factor (upper (Cli.base args)) in
        Cli.Stdout (report format_f args
          (PrimFloat.mul
             (PrimFloat.div (Cli.amount args) (PrimFloat.div rf factor))
             (PrimFloat.div rt factor)))
    | _, _ =>
        Cli.StderrExit
          (unsupported_currency (upper (Cli.from_currency args))
             (upper (Cli.to_currency args))) 1
    end.
Proof.
  intros Hno. unfold main.
  rewrite (get_rates_no_live _ _ Hno). simpl. rewrite convert_normalized.
  destruct (FALLBACK_RATES !! upper (Cli.from_currency args)); [|done].
  by destruct (FALLBACK_RATES !! upper (Cli.to_currency args)).
Qed.

(** ** The further properties at concrete inputs *)

Lemma convert_compose_exact_witness :
  (B ← convert (Q2Qc (Qmake 100 1)) "USD" "EUR" exact_rates;
   convert B "EUR" "JPY" exact_rates)
  = convert (Q2Qc (Qmake 100 1)) "USD" "JPY" exact_rates.
Proof.
  apply (convert_compose_exact (Q2Qc (Qmake 100 1)) "USD" "EUR" "JPY" exact_rates).
  - apply exact_rates_rate_mapping.
  - apply elem_of_dom. eexists. reflexivity.
  - apply elem_of_dom. eexists. reflexivity.
  - apply elem_of_dom. eexists. reflexivity.
Defined.

Lemma convert_base_invariant_exact_witness :
  convert (Q2Qc (Qmake 100 1)) "usd" "eur"
    ((λ v, v / Q2Qc (Qmake 92 100))%Qc <$> exact_rates)
  = convert (Q2Qc (Qmake 100 1)) "usd" "eur" exact_rates.
Proof.
  apply (convert_base_invariant_exact (Q2Qc (Qmake 100 1)) (Q2Qc (Qmake 92 100))
           "usd" "eur" exact_rates).
  intros Hzero. discriminate Hzero.
Defined.

Lemma get_rates_live_success_witness :
  get_rates (Some online) "eur" = Ok live_rates.
Proof.
  eapply (get_rates_live_success online "eur").
  - reflexivity.
  - reflexivity.
  - reflexivity.
  - intros Hempty.
    apply (f_equal (λ m : gmap string float, m !! "USD")) in Hempty.
    discriminate Hempty.
Defined.

Lemma get_rates_single_request_witness :
  get_rates (Some offline) "eur"
  = get_rates
      (Some {| Requests.get := λ _ timeout,
                 if (timeout =? 5)%Z then Raise RequestException
                 else Raise HTTPError |}) "eur".
Proof.
  apply (get_rates_single_request offline). reflexivity.
Defined.

Lemma fallback_conversion_witness :
  (rates ← get_rates (Some offline) "eur"; convert 100%float "usd" "jpy" rates)
  = match FALLBACK_RATES !! upper "usd", FALLBACK_RATES !! upper "jpy" with
    | Some rf, Some rt =>
        Ok (PrimFloat.mul
              (PrimFloat.div 100
                 (PrimFloat.div rf (normalization_factor (upper "eur"))))
              (PrimFloat.div rt (normalization_factor (upper "eur"))))
    | _, _ => Raise (unsupported_currency (upper "usd") (upper "jpy"))
    end.
Proof.
  apply (fallback_conversion (Some offline) "eur" 100%float "usd" "jpy").
  apply offline_no_live_rates.
Defined.

Lemma main_fallback_witness :
  main (λ _ _, "x") None
    {| Cli.amount := 100; Cli.from_currency := "usd";
       Cli.to_currency := "eur"; Cli.base := "USD" |}
  = Cli.Stdout "x USD = x EUR".
Proof.
  exact (main_fallback (λ _ _, "x") None
           {| Cli.amount := 100; Cli.from_currency := "usd";
              Cli.to_currency := "eur"; Cli.base := "USD" |}
           (library_unavailable "USD")).
Defined.

(** ** Rounding in [SpecFloat] *)

Section rounding.
Import Stdlib.Floats.SpecFloat.
Local Open Scope Z_scope.











End rounding.

(** ** Rounded products and quotients as rationals *)

Section magnitudes.
Import Stdlib.QArith.QArith Stdlib.QArith.Qpower Stdlib.micromega.Lqa.
Local Open Scope Q_scope.















End magnitudes.

(** ** Multiplication and division of floats *)

Section binary64_facts.
Import Stdlib.QArith.QArith Stdlib.QArith.Qabs Stdlib.micromega.Lqa.
Import Stdlib.Floats.SpecFloat Stdlib.Floats.FloatOps Stdlib.Floats.FloatAxioms.
Local Open Scope Q_scope.

Lemma normal_finite f : float_normal f = true → float_finite f = true.
Proof. unfold float_normal, float_finite. by destruct (Prim2SF f). Qed.



















(** Outside the range the two laws fail in binary64: the round trip of
    1e-323 from JPY to USD and back underflows to 0.0, and the
    conversion of a currency to itself overflows at 1.7e308 and
    underflows at 5e-324. *)
Example roundtrip_binary64_underflow :
  (B ← convert 1e-323%float "JPY" "USD" FALLBACK_RATES;
   convert B "USD" "JPY" FALLBACK_RATES) = Ok 0%float
  ∧ roundtrip_in_range 1e-323 150 1 = false
  ∧ roundtrip_in_range 1e308 1 150 = false.
Proof. by vm_compute. Qed.

Example identity_binary64_out_of_range :
  convert 1.7e308%float "GBP" "GBP" FALLBACK_RATES = Ok infinity
  ∧ identity_in_range 1.7e308 0.79 = false
  ∧ convert 5e-324%float "JPY" "JPY" FALLBACK_RATES = Ok 0%float
  ∧ identity_in_range 5e-324 150 = false
  ∧ identity_in_range 1 0.79 = true.
Proof. by vm_compute. Qed.



End binary64_facts.
